(** * A verification model of the Tk to-do list of [src/main.py]

    The program keeps a Python list of task dicts [{"text": str, "done": bool}],
    loads it from [todo_gui.json] at startup ([load_tasks]), and every Tk
    callback ([add_task], [toggle_done], [delete_task], [clear_completed])
    mutates the list, calls [save_tasks] and refreshes the listbox.

    Python strings are modelled as [String.string] over ASCII; the JSON file is
    modelled at the level of the document it holds: a file whose text decodes
    (UTF-8, then [json.loads]) holds [Present (Some v)] for the decoded Python
    value [v], and one that does not decode holds [Present None].
    [json.dumps] followed by [json.loads] gives back the value that was dumped
    (string-keyed dicts, lists, strings, booleans), so [save_tasks] stores the
    dumped value itself. *)

From Stdlib Require Import String Ascii List Bool ZArith NArith Lia.
Import ListNotations.
Open Scope string_scope.
Open Scope nat_scope.
#[local] Set Warnings "-register-all".

(** ** Python values produced by [json.loads] *)

Inductive pyval : Type :=
| PNone : pyval
| PBool : bool -> pyval
| PInt : Z -> pyval
| PFloat : string -> pyval            (** a float, by its [repr] *)
| PStr : string -> pyval
| PList : list pyval -> pyval
| PDict : list (string * pyval) -> pyval.  (** keys in insertion order, unique *)

(** [k in d] and [d[k]] / [d.get(k)] on a dict. *)
Fixpoint dict_get (k : string) (d : list (string * pyval)) : option pyval :=
  match d with
  | [] => None
  | (k', v) :: d' => if String.eqb k k' then Some v else dict_get k d'
  end.

(** ** [str.isspace] and [str.strip()] on ASCII *)

(** Python's whitespace in the ASCII range: [\t \n \v \f \r], the four
    separators [\x1c]..[\x1f], and the space. *)
Definition is_space (c : ascii) : bool :=
  let n := nat_of_ascii c in
  ((9 <=? n) && (n <=? 13)) || ((28 <=? n) && (n <=? 32)).

Fixpoint lstrip_l (l : list ascii) : list ascii :=
  match l with
  | [] => []
  | c :: l' => if is_space c then lstrip_l l' else l
  end.

Definition py_strip (s : string) : string :=
  string_of_list_ascii
    (rev (lstrip_l (rev (lstrip_l (list_ascii_of_string s))))).

(** ** [str(x)] and [repr(x)] of the values [json.loads] returns *)

Fixpoint dec_digits (fuel : nat) (n : N) (acc : string) : string :=
  match fuel with
  | O => acc
  | S f =>
      let acc' := String (ascii_of_N (48 + N.modulo n 10)) acc in
      if (n <? 10)%N then acc' else dec_digits f (N.div n 10) acc'
  end.

Definition str_of_N (n : N) : string := dec_digits (S (N.size_nat n)) n "".

Definition str_of_Z (z : Z) : string :=
  match z with
  | Zneg p => "-" ++ str_of_N (Npos p)
  | _ => str_of_N (Z.to_N z)
  end.

(** [repr] of a string: single quotes unless the text has a single quote and
    no double quote; backslash, the chosen quote and control characters
    escaped. *)
Definition hex_digit (n : nat) : ascii :=
  if n <? 10 then ascii_of_nat (48 + n) else ascii_of_nat (87 + n).

Definition repr_char (q c : ascii) : string :=
  let n := nat_of_ascii c in
  if Ascii.eqb c "\" then "\\"
  else if Ascii.eqb c q then String "\" (String q EmptyString)
  else if n =? 10 then "\n"
  else if n =? 13 then "\r"
  else if n =? 9 then "\t"
  else if (n <? 32) || (n =? 127) then
    String "\" (String "x" (String (hex_digit (n / 16)) (String (hex_digit (n mod 16)) EmptyString)))
  else String c EmptyString.

Fixpoint concat_map_str (f : ascii -> string) (s : string) : string :=
  match s with
  | EmptyString => EmptyString
  | String c s' => f c ++ concat_map_str f s'
  end.

Fixpoint has_char (c : ascii) (s : string) : bool :=
  match s with
  | EmptyString => false
  | String c' s' => Ascii.eqb c c' || has_char c s'
  end.

Definition dquote : ascii := ascii_of_nat 34.

Definition repr_str (s : string) : string :=
  let q := if has_char "'" s && negb (has_char dquote s) then dquote else "'"%char in
  String q (concat_map_str (repr_char q) s ++ String q EmptyString).

Definition join (sep : string) (l : list string) : string :=
  match l with
  | [] => ""
  | x :: l' => x ++ fold_right (fun y acc => sep ++ y ++ acc) "" l'
  end.

Fixpoint py_repr (v : pyval) : string :=
  match v with
  | PNone => "None"
  | PBool true => "True"
  | PBool false => "False"
  | PInt z => str_of_Z z
  | PFloat r => r
  | PStr s => repr_str s
  | PList l => "[" ++ join ", " (map py_repr l) ++ "]"
  | PDict d => "{" ++ join ", " (map (fun kv => repr_str (fst kv) ++ ": " ++ py_repr (snd kv)) d) ++ "}"
  end.

Definition py_str (v : pyval) : string :=
  match v with
  | PStr s => s
  | _ => py_repr v
  end.

(** [bool(x)]: Python truthiness. *)
Definition py_bool (v : pyval) : bool :=
  match v with
  | PNone => false
  | PBool b => b
  | PInt z => negb (Z.eqb z 0)
  | PFloat r => negb (String.eqb r "0.0" || String.eqb r "-0.0")
  | PStr s => negb (String.eqb s "")
  | PList l => negb (Nat.eqb (length l) 0)
  | PDict d => negb (Nat.eqb (length d) 0)
  end.

(** ** Tasks and the file *)

Record task : Type := mkTask { text : string; done : bool }.

Inductive fstate : Type :=
| Missing : fstate                    (** [data_file.exists()] is false *)
| StatDenied : fstate                 (** [data_file.exists()] raises: [stat]
                                          fails with an error [pathlib] does
                                          not ignore (Python 3.10-3.12), e.g.
                                          [EACCES] when the working directory
                                          cannot be searched *)
| Unreadable : fstate                 (** [read_text] raises [OSError] *)
| Present : option pyval -> fstate.   (** the decoded document, [None] when
                                          decoding or [json.loads] raises *)

(** The body of the [for item in data] loop of [load_tasks]. *)
Fixpoint load_items (items : list pyval) (out : list task) : list task :=
  match items with
  | [] => out
  | PDict d :: items' =>
      match dict_get "text" d with
      | Some t =>
          let dn := match dict_get "done" d with Some x => x | None => PBool false end in
          load_items items' (out ++ [mkTask (py_str t) (py_bool dn)])
      | None => load_items items' out
      end
  | _ :: items' => load_items items' out
  end.

Inductive exn : Type := OSError | ValueError | IndexError.

Inductive res (A : Type) : Type := Ok : A -> res A | Exc : exn -> res A.
Arguments Ok {A} _.
Arguments Exc {A} _.

(** The [try] block of [load_tasks]: reading and decoding may raise, the loop
    does not. [None] is a fall-through to the final [return []]. *)
Definition load_try (f : fstate) : res (option (list task)) :=
  match f with
  | Missing | StatDenied | Unreadable => Exc OSError
  | Present None => Exc ValueError
  | Present (Some (PList data)) => Ok (Some (load_items data []))
  | Present (Some _) => Ok None
  end.

Definition load_tasks_res (f : fstate) : res (list task) :=
  match f with
  | Missing => Ok []                                  (* not data_file.exists() *)
  | StatDenied => Exc OSError                         (* exists() raises, before the try *)
  | _ =>
      match load_try f with
      | Ok (Some out) => Ok out
      | Ok None => Ok []                              (* not a list *)
      | Exc _ => Ok []                                (* except Exception: pass *)
      end
  end.

(** [load_tasks()], the list it returns; where [load_tasks_res] raises
    ([StatDenied]), [TodoGUI_init] below propagates the exception and the
    [[]] here is never used by the program. *)
Definition load_tasks (f : fstate) : list task :=
  match load_tasks_res f with Ok out => out | Exc _ => [] end.

(** [json.dumps(tasks)] as the value it denotes. *)
Definition task_to_py (t : task) : pyval :=
  PDict [("text", PStr (text t)); ("done", PBool (done t))].

Definition dump_tasks (ts : list task) : pyval := PList (map task_to_py ts).

(** ** The window state and the callbacks' monad *)

(** How [write_text] fares on the disk: it succeeds, it fails at [open]
    (permission denied, file left as it was), or it fails after truncating
    the file (disk full: what is left does not decode). *)
Inductive wmode : Type := WOk | WDenied | WFull.

(** The three notices the callbacks show with [messagebox.showinfo]. *)
Inductive notice : Type :=
| NEmptyTask                  (** "Empty task" *)
| NNoSelToggle                (** "No selection", from [toggle_done] *)
| NNoSelDelete                (** "No selection", from [delete_task] *)
| NCleared (removed : nat).   (** "Removed {removed} completed task(s)." *)

Inductive effect : Type :=
| Notice (n : notice)
| SaveAttempt (ts : list task).   (** a call of [save_tasks] *)

(** [self.tasks], the file on disk, [self.task_var], the listbox rows (each
    shown as [_format_line] of a task), [curselection()] (browse mode: at most
    one row) and the log of notices and saves. *)
Record gui : Type := mkGui {
  tasks : list task;
  file : fstate;
  disk : wmode;
  entry : string;
  rows : list task;
  sel : option nat;
  log : list effect
}.

Definition M (A : Type) : Type := gui -> res A * gui.

Definition ret {A} (a : A) : M A := fun s => (Ok a, s).
Definition raise {A} (e : exn) : M A := fun s => (Exc e, s).
Definition bind {A B} (m : M A) (k : A -> M B) : M B :=
  fun s => match m s with
           | (Ok a, s') => k a s'
           | (Exc e, s') => (Exc e, s')
           end.
Definition gets {A} (f : gui -> A) : M A := fun s => (Ok (f s), s).
Definition modify (f : gui -> gui) : M unit := fun s => (Ok tt, f s).

Notation "'let*' x := m 'in' k" := (bind m (fun x => k))
  (at level 200, x name, m at level 100, k at level 200).
Notation "m ;; k" := (bind m (fun _ => k)) (at level 100, right associativity).

Definition set_tasks (ts : list task) (s : gui) : gui :=
  mkGui ts (file s) (disk s) (entry s) (rows s) (sel s) (log s).
Definition set_file (f : fstate) (s : gui) : gui :=
  mkGui (tasks s) f (disk s) (entry s) (rows s) (sel s) (log s).
Definition set_entry (e : string) (s : gui) : gui :=
  mkGui (tasks s) (file s) (disk s) e (rows s) (sel s) (log s).
Definition set_rows_sel (r : list task) (o : option nat) (s : gui) : gui :=
  mkGui (tasks s) (file s) (disk s) (entry s) r o (log s).
Definition push_log (e : effect) (s : gui) : gui :=
  mkGui (tasks s) (file s) (disk s) (entry s) (rows s) (sel s) (log s ++ [e]).

(** Python list indexing [l[i]] with [i >= 0]. *)
Definition py_index {A} (l : list A) (i : nat) : M A :=
  match nth_error l i with Some x => ret x | None => raise IndexError end.

Fixpoint set_nth {A} (i : nat) (x : A) (l : list A) : list A :=
  match l, i with
  | [], _ => []
  | _ :: l', O => x :: l'
  | y :: l', S i' => y :: set_nth i' x l'
  end.

(** [l.pop(i)] for an index in range. *)
Fixpoint remove_nth {A} (i : nat) (l : list A) : list A :=
  match l, i with
  | [], _ => []
  | _ :: l', O => l'
  | y :: l', S i' => y :: remove_nth i' l'
  end.

Definition showinfo (n : notice) : M unit := modify (push_log (Notice n)).

(** [save_tasks(tasks)]: [write_text(json.dumps(tasks, indent=2))]. *)
Definition save_tasks (ts : list task) : M unit :=
  fun s =>
    let s1 := push_log (SaveAttempt ts) s in
    match disk s with
    | WOk => (Ok tt, set_file (Present (Some (dump_tasks ts))) s1)
    | WDenied => (Exc OSError, s1)
    | WFull => (Exc OSError, set_file (Present None) s1)
    end.

(** [self.save()]. *)
Definition save : M unit := let* ts := gets tasks in save_tasks ts.

(** [_refresh_list]: [listbox.delete(0, END)] drops every row and the
    selection, then one row per task is inserted. *)
Definition _refresh_list : M unit := modify (fun s => set_rows_sel (tasks s) None s).

(** [_selected_index]. *)
Definition _selected_index : M (option nat) := gets sel.

Definition add_task : M unit :=
  let* raw := gets entry in
  let text := py_strip raw in
  if String.eqb text "" then showinfo NEmptyTask
  else
    modify (fun s => set_tasks (tasks s ++ [mkTask text false]) s) ;;
    modify (set_entry "") ;;
    save ;;
    _refresh_list.

Definition toggle_done : M unit :=
  let* idx := _selected_index in
  match idx with
  | None => showinfo NNoSelToggle
  | Some i =>
      let* ts := gets tasks in
      let* t := py_index ts i in
      modify (fun s => set_tasks (set_nth i (mkTask (text t) (negb (done t))) (tasks s)) s) ;;
      save ;;
      _refresh_list ;;
      modify (fun s => set_rows_sel (rows s) (Some i) s)     (* selection_set(idx) *)
  end.

(** [answer] is what the user clicks in [messagebox.askyesno]. *)
Definition delete_task (answer : bool) : M unit :=
  let* idx := _selected_index in
  match idx with
  | None => showinfo NNoSelDelete
  | Some i =>
      let* ts := gets tasks in
      let* t := py_index ts i in
      if negb answer then ret tt
      else
        modify (fun s => set_tasks (remove_nth i (tasks s)) s) ;;
        save ;;
        _refresh_list
  end.

Definition clear_completed : M unit :=
  let* before := gets (fun s => length (tasks s)) in
  modify (fun s => set_tasks (filter (fun t => negb (done t)) (tasks s)) s) ;;
  let* after := gets (fun s => length (tasks s)) in
  let removed := before - after in
  save ;;
  _refresh_list ;;
  showinfo (NCleared removed).

(** ** Startup and the user's gestures *)

(** [TodoGUI()]: [self.tasks = load_tasks()], then [_refresh_list()]. *)
Definition TodoGUI_init (f : fstate) (d : wmode) : res gui :=
  match load_tasks_res f with
  | Ok ts => Ok (mkGui ts f d "" ts None [])
  | Exc e => Exc e
  end.

Inductive gesture : Type :=
| GType (s : string)       (** typing into the entry *)
| GSelect (i : nat)        (** clicking a row *)
| GDeselect                (** the selection is lost (exportselection) *)
| GAdd                     (** Add button or Return *)
| GToggle                  (** Toggle button or double click *)
| GDelete (answer : bool)  (** Delete button or key, then the dialog *)
| GClear                   (** Clear Completed *)
| GSave.                   (** Save button *)

Definition handle (g : gesture) : M unit :=
  match g with
  | GType str => modify (set_entry str)
  | GSelect i =>
      let* r := gets rows in
      if i <? length r then modify (fun s => set_rows_sel (rows s) (Some i) s) else ret tt
  | GDeselect => modify (fun s => set_rows_sel (rows s) None s)
  | GAdd => add_task
  | GToggle => toggle_done
  | GDelete a => delete_task a
  | GClear => clear_completed
  | GSave => save
  end.

(** Tk reports an exception raised by a callback and the main loop goes on
    with the state the callback left. *)
Definition run (g : gesture) (s : gui) : gui := snd (handle g s).

Fixpoint run_all (gs : list gesture) (s : gui) : gui :=
  match gs with
  | [] => s
  | g :: gs' => run_all gs' (run g s)
  end.

(** ** Small checks of the model *)

Example strip_ex : py_strip ("  buy milk" ++ String (ascii_of_nat 9) EmptyString) = "buy milk".
Proof. reflexivity. Qed.

Example strip_sep_ex : py_strip (String (ascii_of_nat 31) " ") = "".
Proof. reflexivity. Qed.

Example str_int_ex : py_str (PInt (-120)) = "-120".
Proof. reflexivity. Qed.

Example str_list_ex : py_str (PList [PStr "a"; PBool true; PNone]) = "['a', True, None]".
Proof. reflexivity. Qed.

Example load_spec_ex :
  load_tasks (Present (Some (PList [PDict [("text", PStr "x")];
                                   PDict [("foo", PStr "bar")];
                                   PDict [("text", PStr "y"); ("done", PBool true)]])))
  = [mkTask "x" false; mkTask "y" true].
Proof. reflexivity. Qed.

(** ** Lemmas on the list operations *)

Lemma set_nth_length {A} (i : nat) (x : A) (l : list A) :
  length (set_nth i x l) = length l.
Proof.
  revert i; induction l as [|y l IH]; intros [|i]; simpl; auto.
Qed.

Lemma nth_error_set_nth_eq {A} (i : nat) (x : A) (l : list A) :
  i < length l -> nth_error (set_nth i x l) i = Some x.
Proof.
  revert i; induction l as [|y l IH]; intros [|i] Hi; simpl in *; try lia; auto;
    apply IH; lia.
Qed.

Lemma nth_error_set_nth_neq {A} (i j : nat) (x : A) (l : list A) :
  j <> i -> nth_error (set_nth i x l) j = nth_error l j.
Proof.
  revert i j; induction l as [|y l IH]; intros [|i] [|j] Hij; simpl; auto; try lia;
    apply IH; lia.
Qed.

Lemma set_nth_same {A} (i : nat) (l : list A) (x : A) :
  nth_error l i = Some x -> set_nth i x l = l.
Proof.
  revert i; induction l as [|y l IH]; intros [|i] H; simpl in *; try discriminate.
  - now injection H as ->.
  - now rewrite IH.
Qed.

Lemma set_nth_set_nth {A} (i : nat) (x y : A) (l : list A) :
  set_nth i y (set_nth i x l) = set_nth i y l.
Proof.
  revert i; induction l as [|z l IH]; intros [|i]; simpl; auto.
  now rewrite IH.
Qed.

Lemma remove_nth_length {A} (i : nat) (l : list A) :
  i < length l -> S (length (remove_nth i l)) = length l.
Proof.
  revert i; induction l as [|y l IH]; intros [|i] Hi; simpl in *; try lia; auto;
    rewrite IH; lia.
Qed.

Lemma nth_error_remove_nth_lt {A} (i j : nat) (l : list A) :
  j < i -> nth_error (remove_nth i l) j = nth_error l j.
Proof.
  revert i j; induction l as [|y l IH]; intros [|i] [|j] Hij; simpl; auto; try lia;
    apply IH; lia.
Qed.

Lemma nth_error_remove_nth_ge {A} (i j : nat) (l : list A) :
  i <= j -> nth_error (remove_nth i l) j = nth_error l (S j).
Proof.
  revert i j; induction l as [|y l IH]; intros [|i] [|j] Hij; simpl; auto; try lia;
    apply IH; lia.
Qed.

Lemma nth_error_app_l {A} (l l' : list A) (j : nat) :
  j < length l -> nth_error (l ++ l') j = nth_error l j.
Proof. intros; now apply nth_error_app1. Qed.

Ltac unfold_m :=
  cbv beta iota zeta delta [bind ret raise gets modify showinfo save save_tasks
    _refresh_list _selected_index py_index add_task toggle_done delete_task
    clear_completed].

(** ** C2: [add_task] *)

(** C2. [add_task] shows the "Empty task" notice and changes nothing else
    (no task, no save) exactly when the entry text is empty after [strip()];
    otherwise it appends [{text: stripped entry, done: False}] at the end (the
    list grows by one, earlier tasks stay in place) and then saves. *)
Theorem add_task_spec (s : gui) :
  (py_strip (entry s) = "" -> add_task s = (Ok tt, push_log (Notice NEmptyTask) s)) /\
  (py_strip (entry s) <> "" ->
     let s' := snd (add_task s) in
     tasks s' = (tasks s ++ [mkTask (py_strip (entry s)) false])%list /\
     length (tasks s') = S (length (tasks s)) /\
     (forall j, j < length (tasks s) -> nth_error (tasks s') j = nth_error (tasks s) j) /\
     last (tasks s') (mkTask "" true) = mkTask (py_strip (entry s)) false /\
     log s' = (log s ++ [SaveAttempt (tasks s')])%list /\
     (disk s = WOk -> fst (add_task s) = Ok tt /\
                      file s' = Present (Some (dump_tasks (tasks s'))))).
Proof.
  split.
  - intros H. unfold_m. rewrite H. reflexivity.
  - intros H. unfold_m.
    destruct (String.eqb_spec (py_strip (entry s)) "") as [E|E]; [contradiction|].
    simpl. destruct (disk s); simpl;
      (split; [reflexivity|]);
      (split; [rewrite length_app; simpl; lia|]);
      (split; [intros j Hj; now apply nth_error_app_l|]);
      (split; [now rewrite last_last|]);
      (split; [reflexivity|]);
      intros D; try discriminate; auto.
Qed.

(** ** C4: [toggle_done] *)

(** C4. With row [i] selected and task [t] at [i], [toggle_done] replaces it by
    [t] with [done] flipped (same text, same position, every other task
    unchanged), keeps [i] selected, and a second [toggle_done] gives back the
    starting list. *)
Theorem toggle_done_spec (s : gui) (i : nat) (t : task) :
  sel s = Some i -> nth_error (tasks s) i = Some t ->
  let s' := snd (toggle_done s) in
  tasks s' = set_nth i (mkTask (text t) (negb (done t))) (tasks s) /\
  length (tasks s') = length (tasks s) /\
  nth_error (tasks s') i = Some (mkTask (text t) (negb (done t))) /\
  (forall j, j <> i -> nth_error (tasks s') j = nth_error (tasks s) j) /\
  sel s' = Some i /\
  tasks (snd (toggle_done s')) = tasks s.
Proof.
  intros Hs Ht.
  assert (Hi : i < length (tasks s)) by (apply nth_error_Some; congruence).
  assert (Hstep : forall u, sel u = Some i -> nth_error (tasks u) i = Some t ->
    tasks (snd (toggle_done u)) = set_nth i (mkTask (text t) (negb (done t))) (tasks u) /\
    sel (snd (toggle_done u)) = Some i).
  { intros u Hu Htu. unfold_m.
    rewrite Hu, Htu. simpl. destruct (disk u); simpl; auto. }
  destruct (Hstep s Hs Ht) as [E1 S1].
  cbv zeta. rewrite E1.
  split; [reflexivity|].
  split; [apply set_nth_length|].
  split; [now apply nth_error_set_nth_eq|].
  split; [intros j Hj; now apply nth_error_set_nth_neq|].
  split; [exact S1|].
  set (s' := snd (toggle_done s)) in *.
  assert (Ht' : nth_error (tasks s') i = Some (mkTask (text t) (negb (done t))))
    by (rewrite E1; now apply nth_error_set_nth_eq).
  unfold_m. rewrite S1, Ht'.
  assert (Hfin : set_nth i (mkTask (text t) (negb (negb (done t)))) (tasks s') = tasks s).
  { rewrite E1, set_nth_set_nth, negb_involutive. destruct t; now apply set_nth_same. }
  simpl. destruct (disk s'); simpl; exact Hfin.
Qed.

(** ** C6: [delete_task] *)

(** C6. With row [i] selected and the deletion confirmed, [delete_task]
    removes exactly the task at [i]: the list is one shorter, tasks before [i]
    stay, tasks after [i] move one position left unchanged; then it saves. *)
Theorem delete_task_spec (s : gui) (i : nat) (t : task) :
  sel s = Some i -> nth_error (tasks s) i = Some t ->
  let s' := snd (delete_task true s) in
  tasks s' = remove_nth i (tasks s) /\
  S (length (tasks s')) = length (tasks s) /\
  (forall j, j < i -> nth_error (tasks s') j = nth_error (tasks s) j) /\
  (forall j, i <= j -> nth_error (tasks s') j = nth_error (tasks s) (S j)) /\
  log s' = (log s ++ [SaveAttempt (tasks s')])%list.
Proof.
  intros Hs Ht.
  assert (Hi : i < length (tasks s)) by (apply nth_error_Some; congruence).
  assert (E : tasks (snd (delete_task true s)) = remove_nth i (tasks s) /\
              log (snd (delete_task true s)) = (log s ++ [SaveAttempt (remove_nth i (tasks s))])%list).
  { unfold_m. rewrite Hs, Ht. simpl. destruct (disk s); simpl; auto. }
  destruct E as [E1 E2]. cbv zeta. rewrite E2, E1.
  split; [reflexivity|].
  split; [now apply remove_nth_length|].
  split; [intros j Hj; now apply nth_error_remove_nth_lt|].
  split; [intros j Hj; now apply nth_error_remove_nth_ge|].
  reflexivity.
Qed.

(** ** C7 and C10: [clear_completed] *)

Definition count_done (ts : list task) : nat := length (filter done ts).

Lemma filter_done_length (ts : list task) :
  length ts = length (filter (fun t => negb (done t)) ts) + count_done ts.
Proof.
  unfold count_done; induction ts as [|t ts IH]; simpl; auto.
  destruct (done t); simpl; lia.
Qed.

Lemma clear_completed_tasks (s : gui) :
  tasks (snd (clear_completed s)) = filter (fun t => negb (done t)) (tasks s).
Proof. unfold_m. simpl. destruct (disk s); reflexivity. Qed.

Example clear_completed_ex :
  let A := mkTask "A" false in let B := mkTask "B" true in
  let C := mkTask "C" true in let D := mkTask "D" false in
  let s := mkGui [A; B; C; D] Missing WOk "" [A; B; C; D] None [] in
  tasks (snd (clear_completed s)) = [A; D] /\
  log (snd (clear_completed s)) = [SaveAttempt [A; D]; Notice (NCleared 2)].
Proof. split; reflexivity. Qed.

(** C7. [clear_completed] keeps exactly the tasks whose [done] is false, in
    their order, always calls [save_tasks] (also when nothing is removed),
    and, when the save succeeds, shows the number of removed tasks (the
    number of done tasks before). *)
Theorem clear_completed_spec (s : gui) :
  let s' := snd (clear_completed s) in
  tasks s' = filter (fun t => negb (done t)) (tasks s) /\
  (forall t, In t (tasks s') <-> In t (tasks s) /\ done t = false) /\
  length (tasks s) - length (tasks s') = count_done (tasks s) /\
  (disk s = WOk ->
     fst (clear_completed s) = Ok tt /\
     log s' = (log s ++ [SaveAttempt (tasks s'); Notice (NCleared (count_done (tasks s)))])%list) /\
  (disk s <> WOk ->
     fst (clear_completed s) = Exc OSError /\
     log s' = (log s ++ [SaveAttempt (tasks s')])%list).
Proof.
  cbv zeta. rewrite clear_completed_tasks.
  split; [reflexivity|].
  split.
  { intros t. rewrite filter_In, negb_true_iff. reflexivity. }
  split; [rewrite (filter_done_length (tasks s)) at 1; lia|].
  assert (Hr : length (tasks s) - length (filter (fun t => negb (done t)) (tasks s))
               = count_done (tasks s)) by (rewrite (filter_done_length (tasks s)) at 1; lia).
  unfold_m. simpl. rewrite Hr.
  split; intros D; destruct (disk s); try congruence; simpl; repeat split;
    now rewrite <- app_assoc.
Qed.

Lemma filter_not_done_idem (ts : list task) :
  filter (fun t => negb (done t)) (filter (fun t => negb (done t)) ts)
  = filter (fun t => negb (done t)) ts.
Proof.
  induction ts as [|t ts IH]; simpl; auto.
  destruct (done t) eqn:E; simpl; [exact IH|]. rewrite E. simpl. now rewrite IH.
Qed.

Lemma count_done_filter (ts : list task) :
  count_done (filter (fun t => negb (done t)) ts) = 0.
Proof.
  unfold count_done; induction ts as [|t ts IH]; simpl; auto.
  destruct (done t) eqn:E; simpl; [exact IH|]. rewrite E. exact IH.
Qed.

Lemma clear_completed_disk (s : gui) : disk (snd (clear_completed s)) = disk s.
Proof. unfold_m. simpl. destruct (disk s) eqn:E; simpl; auto. Qed.

(** C10. After [clear_completed] no task is done, so a second
    [clear_completed] right after leaves the list as it is and, when the save
    succeeds, reports 0 removed tasks. *)
Theorem clear_completed_idempotent (s : gui) :
  let s1 := snd (clear_completed s) in
  let s2 := snd (clear_completed s1) in
  (forall t, In t (tasks s1) -> done t = false) /\
  tasks s2 = tasks s1 /\
  (disk s = WOk ->
     log s2 = (log s1 ++ [SaveAttempt (tasks s1); Notice (NCleared 0)])%list).
Proof.
  cbv zeta.
  set (s1 := snd (clear_completed s)).
  assert (T1 : tasks s1 = filter (fun t => negb (done t)) (tasks s))
    by apply clear_completed_tasks.
  assert (T2 : tasks (snd (clear_completed s1)) = tasks s1)
    by (rewrite clear_completed_tasks, T1; apply filter_not_done_idem).
  split.
  { intros t Ht. rewrite T1, filter_In in Ht. destruct Ht as [_ Ht].
    now apply negb_true_iff. }
  split; [exact T2|].
  intros D. assert (D1 : disk s1 = WOk) by (unfold s1; now rewrite clear_completed_disk).
  assert (Z : length (tasks s1) - length (filter (fun t => negb (done t)) (tasks s1)) = 0).
  { rewrite T1, filter_not_done_idem. lia. }
  clearbody s1. unfold_m. simpl. rewrite D1. simpl. rewrite Z.
  rewrite T1, filter_not_done_idem, <- T1. now rewrite <- app_assoc.
Qed.

(** ** C9: a failing save is raised and the mutation stays *)

(** C9. When [write_text] fails, each callback that reaches [save()]
    raises [OSError] to its caller, and [self.tasks] keeps the mutation the
    callback made before saving: the appended task, the flipped flag, the
    removed task, the dropped done tasks. *)
Theorem save_failure_not_rolled_back (s : gui) :
  disk s <> WOk ->
  (py_strip (entry s) <> "" ->
     fst (add_task s) = Exc OSError /\
     tasks (snd (add_task s)) = (tasks s ++ [mkTask (py_strip (entry s)) false])%list) /\
  (forall i t, sel s = Some i -> nth_error (tasks s) i = Some t ->
     fst (toggle_done s) = Exc OSError /\
     tasks (snd (toggle_done s)) = set_nth i (mkTask (text t) (negb (done t))) (tasks s)) /\
  (forall i t, sel s = Some i -> nth_error (tasks s) i = Some t ->
     fst (delete_task true s) = Exc OSError /\
     tasks (snd (delete_task true s)) = remove_nth i (tasks s)) /\
  (fst (clear_completed s) = Exc OSError /\
   tasks (snd (clear_completed s)) = filter (fun t => negb (done t)) (tasks s)).
Proof.
  intros D.
  split; [|split; [|split]].
  - intros H. unfold_m.
    destruct (String.eqb_spec (py_strip (entry s)) "") as [E|E]; [contradiction|].
    simpl. destruct (disk s); [congruence| |]; simpl; auto.
  - intros i t Hs Ht. unfold_m. rewrite Hs, Ht. simpl.
    destruct (disk s); [congruence| |]; simpl; auto.
  - intros i t Hs Ht. unfold_m. rewrite Hs, Ht. simpl.
    destruct (disk s); [congruence| |]; simpl; auto.
  - unfold_m. simpl. destruct (disk s); [congruence| |]; simpl; auto.
Qed.

Example save_failure_not_rolled_back_witness :
  disk (mkGui [mkTask "a" true] Missing WDenied "b" [mkTask "a" true] (Some 0) []) <> WOk /\
  fst (clear_completed (mkGui [mkTask "a" true] Missing WDenied "b" [mkTask "a" true] (Some 0) []))
    = Exc OSError /\
  tasks (snd (clear_completed (mkGui [mkTask "a" true] Missing WDenied "b" [mkTask "a" true] (Some 0) [])))
    = [].
Proof.
  split; [discriminate|].
  exact (proj2 (proj2 (proj2 (save_failure_not_rolled_back
    (mkGui [mkTask "a" true] Missing WDenied "b" [mkTask "a" true] (Some 0) []) ltac:(discriminate))))).
Defined.

(** ** C3: [save_tasks] then [load_tasks] *)

Lemma load_items_dump (ts : list task) (out : list task) :
  load_items (map task_to_py ts) out = (out ++ ts)%list.
Proof.
  revert out; induction ts as [|[x b] ts IH]; intros out; simpl.
  - now rewrite app_nil_r.
  - rewrite IH. now rewrite <- app_assoc.
Qed.

(** C3. After a successful [save()], loading the file (as a fresh start of
    the program does) gives back the same list of [{text, done}] tasks in
    the same order. *)
Theorem save_load_roundtrip (s : gui) :
  disk s = WOk ->
  load_tasks (file (snd (save s))) = tasks s /\
  (forall d, exists g, TodoGUI_init (file (snd (save s))) d = Ok g /\ tasks g = tasks s).
Proof.
  intros D.
  assert (F : file (snd (save s)) = Present (Some (dump_tasks (tasks s)))).
  { unfold_m. rewrite D. reflexivity. }
  assert (L : load_tasks_res (file (snd (save s))) = Ok (tasks s)).
  { rewrite F. unfold load_tasks_res, load_try, dump_tasks. now rewrite load_items_dump. }
  split.
  - unfold load_tasks. now rewrite L.
  - intros d. unfold TodoGUI_init. rewrite L. eexists; split; reflexivity.
Qed.

Example save_load_roundtrip_witness :
  disk (mkGui [mkTask "x" false; mkTask "y" true] Missing WOk "" [] None []) = WOk /\
  load_tasks (file (snd (save (mkGui [mkTask "x" false; mkTask "y" true] Missing WOk "" [] None []))))
    = [mkTask "x" false; mkTask "y" true].
Proof.
  split; [reflexivity|].
  exact (proj1 (save_load_roundtrip
    (mkGui [mkTask "x" false; mkTask "y" true] Missing WOk "" [] None []) eq_refl)).
Defined.

(** ** C8: [load_tasks] *)

(** C8 (failing input). [load_tasks] catches every exception raised inside
    its [try] and returns [[]], but [data_file.exists()] runs before the
    [try]: when it raises, [load_tasks] raises and [TodoGUI()] does not
    start. Every other file state loads without raising. *)
Theorem load_tasks_stat_error :
  load_tasks_res StatDenied = Exc OSError /\
  (forall d, TodoGUI_init StatDenied d = Exc OSError) /\
  (forall f, f <> StatDenied -> exists ts, load_tasks_res f = Ok ts).
Proof.
  split; [reflexivity|]. split; [reflexivity|].
  intros f Hf. destruct f as [| | |[[]|]]; try contradiction; eexists; reflexivity.
Qed.

(** ** Witnesses for C4 and C6 *)

Example toggle_done_spec_witness :
  sel (mkGui [mkTask "a" false; mkTask "b" true] Missing WOk "" [mkTask "a" false; mkTask "b" true] (Some 1) []) = Some 1 /\
  tasks (snd (toggle_done (mkGui [mkTask "a" false; mkTask "b" true] Missing WOk ""
                               [mkTask "a" false; mkTask "b" true] (Some 1) [])))
    = [mkTask "a" false; mkTask "b" false].
Proof.
  split; [reflexivity|].
  exact (proj1 (toggle_done_spec
    (mkGui [mkTask "a" false; mkTask "b" true] Missing WOk "" [mkTask "a" false; mkTask "b" true] (Some 1) [])
    1 (mkTask "b" true) eq_refl eq_refl)).
Defined.

Example delete_task_spec_witness :
  sel (mkGui [mkTask "a" false; mkTask "b" true] Missing WOk "" [mkTask "a" false; mkTask "b" true] (Some 0) []) = Some 0 /\
  tasks (snd (delete_task true (mkGui [mkTask "a" false; mkTask "b" true] Missing WOk ""
                                   [mkTask "a" false; mkTask "b" true] (Some 0) [])))
    = [mkTask "b" true].
Proof.
  split; [reflexivity|].
  exact (proj1 (delete_task_spec
    (mkGui [mkTask "a" false; mkTask "b" true] Missing WOk "" [mkTask "a" false; mkTask "b" true] (Some 0) [])
    0 (mkTask "a" false) eq_refl eq_refl)).
Defined.

(** ** C1: the text invariant *)

Definition nonspace (c : ascii) : bool := negb (is_space c).

(** "every element has a non-empty trimmed text" *)
Definition text_ok (t : task) : Prop := py_strip (text t) <> "".

Lemma existsb_lstrip (l : list ascii) :
  existsb nonspace (lstrip_l l) = existsb nonspace l.
Proof.
  induction l as [|c l IH]; simpl; auto.
  unfold nonspace at 2. destruct (is_space c) eqn:E; simpl; auto.
  unfold nonspace. now rewrite E.
Qed.

Lemma lstrip_nil_iff (l : list ascii) :
  lstrip_l l = [] <-> existsb nonspace l = false.
Proof.
  induction l as [|c l IH]; simpl; [tauto|].
  unfold nonspace at 1. destruct (is_space c) eqn:E; simpl; [exact IH|].
  split; discriminate.
Qed.

Lemma existsb_rev {A} (p : A -> bool) (l : list A) :
  existsb p (rev l) = existsb p l.
Proof.
  induction l as [|x l IH]; simpl; auto.
  rewrite existsb_app, IH. simpl. now rewrite orb_false_r, orb_comm.
Qed.

Lemma py_strip_empty_iff (s : string) :
  py_strip s = "" <-> existsb nonspace (list_ascii_of_string s) = false.
Proof.
  unfold py_strip.
  rewrite <- existsb_lstrip, <- existsb_rev, <- lstrip_nil_iff.
  split.
  - intros H. apply (f_equal list_ascii_of_string) in H.
    rewrite list_ascii_of_string_of_list_ascii in H.
    destruct (lstrip_l (rev (lstrip_l (list_ascii_of_string s)))); [reflexivity|].
    simpl in H. destruct (rev l); simpl in H; discriminate.
  - intros ->. reflexivity.
Qed.

Lemma py_strip_strip_empty_iff (s : string) :
  py_strip (py_strip s) = "" <-> py_strip s = "".
Proof.
  rewrite (py_strip_empty_iff (py_strip s)), (py_strip_empty_iff s).
  unfold py_strip. rewrite list_ascii_of_string_of_list_ascii.
  now rewrite existsb_rev, existsb_lstrip, existsb_rev, existsb_lstrip.
Qed.

Lemma Forall_set_nth {A} (P : A -> Prop) (i : nat) (x : A) (l : list A) :
  Forall P l -> P x -> Forall P (set_nth i x l).
Proof.
  revert i; induction l as [|y l IH]; intros [|i] Hl Hx; simpl; auto;
    inversion Hl; subst; constructor; auto.
Qed.

Lemma Forall_remove_nth {A} (P : A -> Prop) (i : nat) (l : list A) :
  Forall P l -> Forall P (remove_nth i l).
Proof.
  revert i; induction l as [|y l IH]; intros [|i] Hl; simpl; auto;
    inversion Hl; subst; auto.
Qed.

Lemma run_text_ok (g : gesture) (s : gui) :
  Forall text_ok (tasks s) -> Forall text_ok (tasks (run g s)).
Proof.
  intros H. unfold run, handle.
  destruct g as [str|i| | | |a| |]; unfold_m; simpl.
  - exact H.
  - destruct (i <? length (rows s)); exact H.
  - exact H.
  - destruct (String.eqb_spec (py_strip (entry s)) "") as [E|E]; simpl; [exact H|].
    assert (Hn : Forall text_ok (tasks s ++ [mkTask (py_strip (entry s)) false])%list).
    { apply Forall_app; split; [exact H|]. constructor; [|constructor].
      unfold text_ok; simpl. now rewrite py_strip_strip_empty_iff. }
    destruct (disk s); exact Hn.
  - destruct (sel s) as [i|]; simpl; [|exact H].
    destruct (nth_error (tasks s) i) as [t|] eqn:Et; simpl; [|exact H].
    assert (Hn : Forall text_ok (set_nth i (mkTask (text t) (negb (done t))) (tasks s))).
    { apply Forall_set_nth; [exact H|].
      apply nth_error_In in Et. rewrite Forall_forall in H. exact (H t Et). }
    destruct (disk s); exact Hn.
  - destruct (sel s) as [i|]; simpl; [|exact H].
    destruct (nth_error (tasks s) i) as [t|]; simpl; [|exact H].
    destruct a; simpl; [|exact H].
    pose proof (Forall_remove_nth text_ok i (tasks s) H) as Hn.
    destruct (disk s); exact Hn.
  - assert (Hn : Forall text_ok (filter (fun t => negb (done t)) (tasks s))).
    { rewrite Forall_forall in *. intros t Ht. apply filter_In in Ht. now apply H. }
    destruct (disk s); exact Hn.
  - destruct (disk s); exact H.
Qed.

(** C1 (as the code has it). The task [add_task] appends has a text that is
    non-empty after [strip()], and no gesture (add, toggle, delete, clear
    completed, also when their save fails, or typing, selecting, saving)
    breaks the invariant: from a list where every text is non-empty after
    [strip()], every run of gestures keeps it so. [load_tasks] does not
    establish it (see [load_breaks_text_invariant]). *)
Theorem text_invariant_preserved (gs : list gesture) (s : gui) :
  Forall text_ok (tasks s) -> Forall text_ok (tasks (run_all gs s)).
Proof.
  revert s; induction gs as [|g gs IH]; intros s H; simpl; [exact H|].
  apply IH, run_text_ok, H.
Qed.

Example text_invariant_preserved_witness :
  Forall text_ok (tasks (mkGui [mkTask "a" true] Missing WOk " b " [] None [])) /\
  Forall text_ok (tasks (run_all [GAdd; GClear]
                           (mkGui [mkTask "a" true] Missing WOk " b " [] None []))).
Proof.
  assert (H0 : Forall text_ok (tasks (mkGui [mkTask "a" true] Missing WOk " b " [] None [])))
    by (simpl; constructor; [unfold text_ok; simpl; discriminate|constructor]).
  split; [exact H0|].
  exact (text_invariant_preserved [GAdd; GClear] _ H0).
Defined.

(** C1 as stated fails at startup: a stored record whose text is blank is
    loaded as it is. *)
Lemma load_breaks_text_invariant :
  ~ (forall f d g, TodoGUI_init f d = Ok g -> Forall text_ok (tasks g)).
Proof.
  intros H.
  specialize (H (Present (Some (PList [PDict [("text", PStr "  ")]]))) WOk _ eq_refl).
  inversion H as [|t l Ht _ E]. apply Ht. reflexivity.
Qed.

(** ** C5: no selection, and a selection out of range *)

(** C5 (as the code has it). With no selected row, [toggle_done] and
    [delete_task] only show "No selection" (no mutation, no save). The
    selected index is not checked against the list: if it is out of range,
    both raise [IndexError] before any mutation, save or notice. *)
Theorem no_selection_rejected (s : gui) :
  (sel s = None ->
     toggle_done s = (Ok tt, push_log (Notice NNoSelToggle) s) /\
     (forall a, delete_task a s = (Ok tt, push_log (Notice NNoSelDelete) s))) /\
  (forall i, sel s = Some i -> length (tasks s) <= i ->
     toggle_done s = (Exc IndexError, s) /\
     (forall a, delete_task a s = (Exc IndexError, s))).
Proof.
  split.
  - intros Hs. unfold_m. rewrite Hs. split; reflexivity.
  - intros i Hs Hi. apply nth_error_None in Hi.
    unfold_m. rewrite Hs. simpl. rewrite Hi. split; reflexivity.
Qed.

(** The state a failed save leaves: the only task is deleted, [write_text]
    is denied, so [_refresh_list] never runs and the listbox still shows the
    deleted row, selected. *)
Definition stale_start : fstate := Present (Some (PList [PDict [("text", PStr "A")]])).

Definition stale_state : gui :=
  match TodoGUI_init stale_start WDenied with
  | Ok g => run_all [GSelect 0; GDelete true] g
  | Exc _ => mkGui [] Missing WOk "" [] None []
  end.

Example stale_state_ex :
  tasks stale_state = [] /\ rows stale_state = [mkTask "A" false] /\ sel stale_state = Some 0.
Proof. repeat split. Qed.

(** C5 as stated fails: after a delete whose save failed, the selection is
    out of range and [toggle_done] raises [IndexError] instead of showing
    "No selection". *)
Lemma out_of_range_selection_not_signalled :
  (exists g, TodoGUI_init stale_start WDenied = Ok g /\
             run_all [GSelect 0; GDelete true] g = stale_state) /\
  ~ (forall s i, sel s = Some i -> length (tasks s) <= i ->
       toggle_done s = (Ok tt, push_log (Notice NNoSelToggle) s)).
Proof.
  split.
  - eexists; split; reflexivity.
  - intros H. specialize (H stale_state 0 eq_refl (le_n 0)).
    vm_compute in H. discriminate H.
Qed.

(** * Further properties of [src/main.py] *)

(** ** [_format_line] and the header line of [_refresh_list] *)

(** [_format_line(t)]: [f"{'✅' if t['done'] else '⬜'}  {t['text']}"], as
    the Unicode code points of the row text (U+2705 or U+2B1C, two spaces,
    then the task's text). *)
Definition check_mark : N := 9989.
Definition empty_box : N := 11036.

Definition _format_line (t : task) : list N :=
  (if done t then check_mark else empty_box) :: 32%N :: 32%N
    :: map N_of_ascii (list_ascii_of_string (text t)).

(** [_refresh_list] fills the rows and sets the status
    [f"{done}/{total} completed • saved in ..."] from the same [self.tasks],
    so the numbers shown are those of the rows. *)
Definition status_counts (s : gui) : nat * nat :=
  (count_done (rows s), length (rows s)).

Lemma map_N_of_ascii_inj (l l' : list ascii) :
  map N_of_ascii l = map N_of_ascii l' -> l = l'.
Proof.
  revert l'; induction l as [|c l IH]; intros [|c' l'] H; simpl in H;
    try discriminate; auto.
  injection H as Hc Hl.
  rewrite <- (ascii_N_embedding c), <- (ascii_N_embedding c'), Hc.
  f_equal. now apply IH.
Qed.

(** A listbox row shows which task it is: two tasks with the same row text
    are the same task (same text, same done flag). *)
Theorem format_line_injective (t t' : task) :
  _format_line t = _format_line t' -> t = t'.
Proof.
  destruct t as [x b], t' as [x' b']. unfold _format_line; simpl.
  intros H. injection H as Hb Hx.
  apply map_N_of_ascii_inj in Hx.
  rewrite <- (string_of_list_ascii_of_string x), <- (string_of_list_ascii_of_string x'), Hx.
  f_equal. destruct b, b'; unfold check_mark, empty_box in Hb; try discriminate Hb; reflexivity.
Qed.

Example format_line_injective_witness :
  _format_line (mkTask "milk" true) = _format_line (mkTask "milk" true) /\
  mkTask "milk" true = mkTask "milk" true.
Proof.
  split; [reflexivity|].
  exact (format_line_injective (mkTask "milk" true) (mkTask "milk" true) eq_refl).
Defined.

(** ** What a callback leaves in the listbox *)

(** When the save succeeds, [add_task] (non-blank entry), [toggle_done] and
    [delete_task] (confirmed, selection in range) and [clear_completed] end
    with the listbox rows equal to the list, so the status line counts the
    done tasks and all tasks of the list. *)
Theorem refresh_after_successful_save (s : gui) :
  disk s = WOk ->
  (py_strip (entry s) <> "" -> rows (snd (add_task s)) = tasks (snd (add_task s))) /\
  (forall i t, sel s = Some i -> nth_error (tasks s) i = Some t ->
     rows (snd (toggle_done s)) = tasks (snd (toggle_done s)) /\
     rows (snd (delete_task true s)) = tasks (snd (delete_task true s))) /\
  rows (snd (clear_completed s)) = tasks (snd (clear_completed s)).
Proof.
  intros D. split; [|split].
  - intros H. unfold_m.
    destruct (String.eqb_spec (py_strip (entry s)) "") as [E|E]; [contradiction|].
    simpl. rewrite D. reflexivity.
  - intros i t Hs Ht. unfold_m. rewrite Hs, Ht. simpl. rewrite D. split; reflexivity.
  - unfold_m. simpl. rewrite D. reflexivity.
Qed.

Example refresh_after_successful_save_witness :
  disk (mkGui [mkTask "a" true] Missing WOk "" [] None []) = WOk /\
  rows (snd (clear_completed (mkGui [mkTask "a" true] Missing WOk "" [] None [])))
  = tasks (snd (clear_completed (mkGui [mkTask "a" true] Missing WOk "" [] None []))).
Proof.
  split; [reflexivity|].
  exact (proj2 (proj2 (refresh_after_successful_save
    (mkGui [mkTask "a" true] Missing WOk "" [] None []) eq_refl))).
Defined.

(** When the save fails, no callback refreshes the listbox: the rows and the
    selection stay as they were before the callback, so the window shows a
    list that is no longer [self.tasks]. *)
Theorem failed_save_keeps_listbox (s : gui) :
  disk s <> WOk ->
  (forall g, g = GAdd \/ g = GToggle \/ g = GDelete true \/ g = GClear \/ g = GSave ->
     rows (run g s) = rows s /\ sel (run g s) = sel s).
Proof.
  intros D g Hg.
  destruct Hg as [->|[->|[->|[->| ->]]]]; unfold run, handle; unfold_m; simpl.
  - destruct (String.eqb (py_strip (entry s)) ""); simpl; [split; reflexivity|].
    destruct (disk s); [congruence| |]; split; reflexivity.
  - destruct (sel s) as [i|] eqn:Es; simpl; [|rewrite Es; split; reflexivity].
    destruct (nth_error (tasks s) i); simpl; [|rewrite Es; split; reflexivity].
    destruct (disk s); [congruence| |]; simpl; rewrite ?Es; split; reflexivity.
  - destruct (sel s) as [i|] eqn:Es; simpl; [|rewrite Es; split; reflexivity].
    destruct (nth_error (tasks s) i); simpl; [|rewrite Es; split; reflexivity].
    destruct (disk s); [congruence| |]; simpl; rewrite ?Es; split; reflexivity.
  - destruct (disk s); [congruence| |]; split; reflexivity.
  - destruct (disk s); [congruence| |]; split; reflexivity.
Qed.

Example failed_save_keeps_listbox_witness :
  disk (mkGui [mkTask "a" true] Missing WFull "" [] None []) <> WOk /\
  rows (run GClear (mkGui [mkTask "a" true] Missing WFull "" [] None [])) = [].
Proof.
  split; [discriminate|].
  exact (proj1 (failed_save_keeps_listbox (mkGui [mkTask "a" true] Missing WFull "" [] None [])
    ltac:(discriminate) GClear ltac:(right; right; right; left; reflexivity))).
Defined.

(** ** With a working disk the listbox mirrors the list *)

Definition synced (s : gui) : Prop :=
  rows s = tasks s /\ disk s = WOk /\ (forall i, sel s = Some i -> i < length (tasks s)).

Lemma synced_run (g : gesture) (s : gui) : synced s -> synced (run g s).
Proof.
  intros (R & D & Sl). unfold run, handle, synced.
  destruct g as [str|i| | | |a| |]; unfold_m; simpl.
  - auto.
  - destruct (Nat.ltb_spec i (length (rows s))) as [Hi|Hi]; simpl; [|auto].
    repeat split; auto. intros j Hj. injection Hj as <-. now rewrite <- R.
  - repeat split; auto. discriminate.
  - destruct (String.eqb (py_strip (entry s)) ""); simpl; [auto|].
    rewrite D. simpl. repeat split; auto. discriminate.
  - destruct (sel s) as [i|] eqn:Es; simpl; [|rewrite Es; auto].
    destruct (nth_error (tasks s) i) as [t|] eqn:Et; simpl; [|rewrite Es; auto].
    rewrite D. simpl. repeat split; auto.
    intros j Hj. injection Hj as <-. rewrite set_nth_length.
    apply nth_error_Some. congruence.
  - destruct (sel s) as [i|] eqn:Es; simpl; [|rewrite Es; auto].
    destruct (nth_error (tasks s) i) as [t|] eqn:Et; simpl; [|rewrite Es; auto].
    destruct a; simpl; [|rewrite Es; auto].
    rewrite D. simpl. repeat split; auto. discriminate.
  - rewrite D. simpl. repeat split; auto. discriminate.
  - rewrite D. simpl. auto.
Qed.

(** When every write succeeds, from startup and through any run of
    gestures, the listbox rows are exactly the list (so the status line
    counts the list) and a selected row is always an index of the list. *)
Theorem synced_with_working_disk (f : fstate) (gs : list gesture) (g : gui) :
  TodoGUI_init f WOk = Ok g ->
  rows (run_all gs g) = tasks (run_all gs g) /\
  (forall i, sel (run_all gs g) = Some i -> i < length (tasks (run_all gs g))).
Proof.
  intros H.
  assert (S0 : synced g).
  { unfold TodoGUI_init in H. destruct (load_tasks_res f); [|discriminate].
    injection H as <-. repeat split; simpl; auto. discriminate. }
  assert (Sn : synced (run_all gs g)).
  { clear H. revert g S0; induction gs as [|x gs IH]; intros g S0; simpl; [exact S0|].
    exact (IH _ (synced_run x g S0)). }
  destruct Sn as (R & _ & Sl). split; assumption.
Qed.

Example synced_with_working_disk_witness :
  TodoGUI_init Missing WOk = Ok (mkGui [] Missing WOk "" [] None []) /\
  sel (run_all [GType "a"; GAdd; GSelect 0] (mkGui [] Missing WOk "" [] None [])) = Some 0 /\
  0 < length (tasks (run_all [GType "a"; GAdd; GSelect 0] (mkGui [] Missing WOk "" [] None []))).
Proof.
  split; [reflexivity|]. split; [reflexivity|].
  exact (proj2 (synced_with_working_disk Missing [GType "a"; GAdd; GSelect 0]
    (mkGui [] Missing WOk "" [] None []) eq_refl) 0 eq_refl).
Defined.

(** ** [on_quit] *)

Inductive app : Type :=
| Running (g : gui)    (** the main loop goes on *)
| Closed (g : gui).    (** [self.destroy()] ran *)

(** [on_quit]: [self.save()] then [self.destroy()]; a raising save skips
    [destroy] and Tk reports the exception. *)
Definition on_quit (g : gui) : app :=
  match save g with
  | (Ok _, g') => Closed g'
  | (Exc _, g') => Running g'
  end.

(** The Quit button closes the window exactly when the save succeeds, and
    then the next start of the program loads the list as it was at quit. *)
Theorem on_quit_spec (g : gui) :
  (disk g = WOk ->
     exists g', on_quit g = Closed g' /\ load_tasks (file g') = tasks g) /\
  (disk g <> WOk -> exists g', on_quit g = Running g' /\ tasks g' = tasks g).
Proof.
  split.
  - intros D. unfold on_quit. unfold_m. rewrite D. eexists; split; [reflexivity|].
    unfold load_tasks, load_tasks_res, load_try, dump_tasks. simpl.
    now rewrite load_items_dump.
  - intros D. unfold on_quit. unfold_m.
    destruct (disk g); [congruence| |]; eexists; split; reflexivity.
Qed.

(** ** [load_tasks]: the normal form *)

(** Loading is a normal form: saving what was loaded and loading again gives
    the same list, whatever the file held. *)
Theorem load_save_load (f : fstate) :
  load_tasks (Present (Some (dump_tasks (load_tasks f)))) = load_tasks f.
Proof.
  unfold load_tasks at 1. unfold load_tasks_res, load_try, dump_tasks.
  now rewrite load_items_dump.
Qed.

(** ** The entry, a declined deletion, and the status counts *)

(** [add_task] empties the entry whenever it adds a task, also when the save
    that follows fails ([task_var.set("")] runs before [save()]); a blank
    entry is left as typed. *)
Theorem add_task_entry (s : gui) :
  (py_strip (entry s) = "" -> entry (snd (add_task s)) = entry s) /\
  (py_strip (entry s) <> "" -> entry (snd (add_task s)) = "").
Proof.
  split; intros H; unfold_m.
  - rewrite H. reflexivity.
  - destruct (String.eqb_spec (py_strip (entry s)) "") as [E|E]; [contradiction|].
    simpl. destruct (disk s); reflexivity.
Qed.

(** Answering no in the "Delete task" dialog leaves everything as it was: no
    mutation, no save, no notice, the selection kept. *)
Theorem delete_declined_no_effect (s : gui) (i : nat) :
  sel s = Some i -> i < length (tasks s) -> delete_task false s = (Ok tt, s).
Proof.
  intros Hs Hi. apply nth_error_Some in Hi.
  destruct (nth_error (tasks s) i) as [t|] eqn:Et; [|contradiction].
  unfold_m. rewrite Hs, Et. reflexivity.
Qed.

Example delete_declined_no_effect_witness :
  sel (mkGui [mkTask "a" false] Missing WOk "" [mkTask "a" false] (Some 0) []) = Some 0 /\
  0 < length (tasks (mkGui [mkTask "a" false] Missing WOk "" [mkTask "a" false] (Some 0) [])) /\
  delete_task false (mkGui [mkTask "a" false] Missing WOk "" [mkTask "a" false] (Some 0) [])
    = (Ok tt, mkGui [mkTask "a" false] Missing WOk "" [mkTask "a" false] (Some 0) []).
Proof.
  split; [reflexivity|]. split; [simpl; lia|].
  exact (delete_declined_no_effect (mkGui [mkTask "a" false] Missing WOk "" [mkTask "a" false] (Some 0) [])
    0 eq_refl ltac:(simpl; lia)).
Defined.

Lemma count_done_set_nth (i : nat) (l : list task) (t : task) :
  nth_error l i = Some t ->
  count_done (set_nth i (mkTask (text t) (negb (done t))) l) + (if done t then 1 else 0)
  = count_done l + (if done t then 0 else 1).
Proof.
  unfold count_done. revert i; induction l as [|y l IH]; intros [|i] H; simpl in *;
    try discriminate.
  - injection H as <-. destruct (done y); simpl; lia.
  - specialize (IH i H). destruct (done y); simpl; lia.
Qed.

(** After a toggle whose save succeeds, the status line shows one more done
    task (the task was not done) or one fewer (it was), out of the same
    total. *)
Theorem toggle_status (s : gui) (i : nat) (t : task) :
  disk s = WOk -> sel s = Some i -> nth_error (tasks s) i = Some t ->
  snd (status_counts (snd (toggle_done s))) = length (tasks s) /\
  fst (status_counts (snd (toggle_done s))) + (if done t then 1 else 0)
  = count_done (tasks s) + (if done t then 0 else 1).
Proof.
  intros D Hs Ht. unfold status_counts. unfold_m. rewrite Hs, Ht. simpl. rewrite D. simpl.
  split; [apply set_nth_length|]. now apply count_done_set_nth.
Qed.

Example toggle_status_witness :
  disk (mkGui [mkTask "a" false] Missing WOk "" [mkTask "a" false] (Some 0) []) = WOk /\
  sel (mkGui [mkTask "a" false] Missing WOk "" [mkTask "a" false] (Some 0) []) = Some 0 /\
  status_counts (snd (toggle_done (mkGui [mkTask "a" false] Missing WOk "" [mkTask "a" false] (Some 0) [])))
    = (1, 1).
Proof.
  split; [reflexivity|]. split; [reflexivity|].
  pose proof (toggle_status (mkGui [mkTask "a" false] Missing WOk "" [mkTask "a" false] (Some 0) [])
    0 (mkTask "a" false) eq_refl eq_refl eq_refl) as [H1 H2].
  set (c := status_counts _) in *. clearbody c. destruct c as [a b].
  simpl in H1, H2. rewrite H1. f_equal. lia.
Defined.

(** After [clear_completed] with a working disk, the status line shows 0 done
    tasks out of the tasks that were not done. *)
Theorem clear_status (s : gui) :
  disk s = WOk ->
  status_counts (snd (clear_completed s)) = (0, length (tasks s) - count_done (tasks s)).
Proof.
  intros D. unfold status_counts. unfold_m. simpl. rewrite D. simpl.
  rewrite count_done_filter. f_equal.
  rewrite (filter_done_length (tasks s)). lia.
Qed.

Example clear_status_witness :
  disk (mkGui [mkTask "a" true; mkTask "b" false] Missing WOk "" [] None []) = WOk /\
  status_counts (snd (clear_completed (mkGui [mkTask "a" true; mkTask "b" false] Missing WOk "" [] None [])))
    = (0, 1).
Proof.
  split; [reflexivity|].
  exact (clear_status (mkGui [mkTask "a" true; mkTask "b" false] Missing WOk "" [] None []) eq_refl).
Defined.
